(** * Agent Identity middleware for FastAPI: a shallow embedding

    Source: [landing/docs/integrations/fastapi-middleware.py].

    The module keeps a process-wide dictionary [_cache] from identifiers to
    pairs (insertion time, optional identity record), asks a remote service
    about identifiers that have no fresh entry, and wraps that verifier in
    three FastAPI dependencies.

    Modelling choices.
    - [datetime] values are points on a microsecond axis ([Z]); a
      [timedelta] is a number of microseconds.  The range limits of
      [datetime] are not modelled.
    - Python [float] is IEEE binary64, here [spec_float] of the Standard
      Library with its comparison [SFltb].
    - The wall clock and the remote service are inputs: an [Env] gives the
      n-th reading of [datetime.now()] and the answer to the n-th request.
    - Effects are threaded through a state-and-exception monad whose state
      holds [_cache] together with a record of what the process did: the
      requests sent, the lines printed and the dictionary stores executed.
    - One call runs without another coroutine interleaving at its [await].
    - Every exception that can occur here derives from [Exception];
      cancellation of the task is not modelled. *)

From Stdlib Require Import ZArith String Ascii List Lia Bool.
From Stdlib Require Import Floats.SpecFloat.
From stdpp Require Import base option gmap strings.

Set Warnings "-register-all".

Local Open Scope string_scope.
Local Open Scope list_scope.
Local Open Scope Z_scope.

(** ** Python values that travel through the module *)

(** What [json.loads] produces.  An object is kept as its list of bindings;
    [dict_get] finds the binding of a key. *)
Inductive json : Type :=
  | JNull
  | JBool (b : bool)
  | JInt (z : Z)
  | JFloat (f : spec_float)
  | JStr (s : string)
  | JList (l : list json)
  | JDict (d : list (string * json)).

Fixpoint dict_get (d : list (string * json)) (k : string) : option json :=
  match d with
  | [] => None
  | (k', v) :: d' => if String.eqb k' k then Some v else dict_get d' k
  end.

(** Truth value of a float: everything but the two zeros. *)
Definition float_truthy (f : spec_float) : bool :=
  match f with
  | S754_zero _ => false
  | _ => true
  end.

Definition str_truthy (s : string) : bool :=
  match s with
  | EmptyString => false
  | String _ _ => true
  end.

(** Python's truth value testing on a parsed JSON value. *)
Definition truthy (v : json) : bool :=
  match v with
  | JNull => false
  | JBool b => b
  | JInt z => negb (z =? 0)
  | JFloat f => float_truthy f
  | JStr s => str_truthy s
  | JList l => match l with [] => false | _ => true end
  | JDict d => match d with [] => false | _ => true end
  end.

(** Truth value of an [Optional[str]]: [None] and the empty string are false. *)
Definition opt_str_truthy (o : option string) : bool :=
  match o with
  | None => false
  | Some s => str_truthy s
  end.

(** [a or b] on [Optional[str]] operands. *)
Definition py_or (a b : option string) : option string :=
  if opt_str_truthy a then a else b.

(** ** Constants *)

Definition AGENT_IDENTITY_API : string := "https://agent-identity.onrender.com".

(** [timedelta(minutes=5)], in microseconds. *)
Definition CACHE_TTL : Z := 5 * 60 * 1000000.

(** ** The identity record *)

Record AgentIdentity : Type := mkAgentIdentity {
  verified : bool;
  did : string;
  name : string;
  reputation : spec_float;
  tasks_completed : Z;
  registered_at : string;
  flags : Z;
  verification_url : string
}.

(** *** Field validation of the model class

    The constructor call [AgentIdentity] on the unpacked [data] validates every declared field; all eight are
    required, keys that are not fields are ignored, and a field that is
    missing or does not validate raises [ValidationError].

    How a [str], [int] or [float] field treats a value of another type
    differs between releases of the validation library, so these three are
    an interface.  The [bool] field is written out: it accepts a boolean,
    the integers 0 and 1, the floats 0.0 and 1.0, and, compared without
    regard to case, the strings 0 off f false n no (false) and
    1 on t true y yes (true). *)
Class FieldValidators : Type := {
  validate_str : json -> option string;
  validate_int : json -> option Z;
  validate_float : json -> option spec_float
}.

Definition ascii_lower (c : ascii) : ascii :=
  let n := N_of_ascii c in
  if ((65 <=? n) && (n <=? 90))%N then ascii_of_N (n + 32) else c.

Fixpoint str_lower (s : string) : string :=
  match s with
  | EmptyString => EmptyString
  | String c s' => String (ascii_lower c) (str_lower s')
  end.

Definition str_in (s : string) (l : list string) : bool :=
  existsb (String.eqb s) l.

Definition BOOL_FALSE : list string := ["0"; "off"; "f"; "false"; "n"; "no"].
Definition BOOL_TRUE : list string := ["1"; "on"; "t"; "true"; "y"; "yes"].

Definition validate_bool (v : json) : option bool :=
  match v with
  | JBool b => Some b
  | JInt z => if z =? 0 then Some false else if z =? 1 then Some true else None
  | JFloat f =>
      if SFeqb f (S754_zero false) then Some false
      else if SFeqb f (S754_finite false 4503599627370496 (-52)) then Some true
      else None
  | JStr s =>
      let s' := str_lower s in
      if str_in s' BOOL_FALSE then Some false
      else if str_in s' BOOL_TRUE then Some true
      else None
  | _ => None
  end.

Section Construction.
Context `{V : FieldValidators}.

Definition field {A} (validate : json -> option A)
    (data : list (string * json)) (k : string) : option A :=
  match dict_get data k with
  | Some v => validate v
  | None => None
  end.

(** The constructor call on the unpacked dictionary; [None] stands for
    [ValidationError]. *)
Definition AgentIdentity_init (data : list (string * json)) : option AgentIdentity :=
  match field validate_bool data "verified",
        field validate_str data "did",
        field validate_str data "name",
        field validate_float data "reputation",
        field validate_int data "tasks_completed",
        field validate_str data "registered_at",
        field validate_int data "flags",
        field validate_str data "verification_url" with
  | Some v, Some d, Some n, Some r, Some t, Some ra, Some f, Some u =>
      Some (mkAgentIdentity v d n r t ra f u)
  | _, _, _, _, _, _, _, _ => None
  end.
End Construction.

(** ** Exceptions, requests and responses *)

(** Pieces of an f-string: literal text and formatted values. *)
Inductive fragment : Type :=
  | Lit (s : string)
  | FmtInt (z : Z)
  | FmtFloat (f : spec_float).

(** Values found in the [detail] dictionary of an [HTTPException]. *)
Inductive pyvalue : Type :=
  | PStr (s : string)
  | PFloat (f : spec_float)
  | PFString (parts : list fragment).

(** The exceptions the module meets.  All of them derive from
    [Exception]. *)
Inductive exn : Type :=
  | TransportError (what : string)
  | JSONDecodeError
  | AttributeError (attr : string)
  | ValidationError
  | TypeError
  | HTTPException (status_code : Z) (detail : list (string * pyvalue)).

(** [client.get(url, timeout=...)], the timeout in whole seconds. *)
Record Request : Type := mkRequest {
  url : string;
  timeout : Z
}.

(** A response: its status code and what [response.json()] gives,
    [None] when the body is not JSON. *)
Record Response : Type := mkResponse {
  status_code : Z;
  body : option json
}.

(** Arguments of one [print] call. *)
Inductive printed : Type :=
  | PrLit (s : string)
  | PrInt (z : Z)
  | PrExn (e : exn).

(** ** The process and its surroundings *)

Abbreviation CacheEntry := (Z * option AgentIdentity)%type.

Record Env : Type := mkEnv {
  clock : nat -> Z;
  network : nat -> Request -> exn + Response
}.

Record State : Type := mkState {
  _cache : gmap string CacheEntry;
  now_calls : nat;
  sent : list Request;
  stdout : list (list printed);
  stores : list (string * CacheEntry)
}.

Inductive outcome (A : Type) : Type :=
  | Returns (a : A)
  | Raises (e : exn).
Arguments Returns {A} a.
Arguments Raises {A} e.

Definition M (A : Type) : Type := State -> outcome A * State.

Definition ret {A} (a : A) : M A := fun st => (Returns a, st).

Definition raise {A} (e : exn) : M A := fun st => (Raises e, st).

Definition bind {A B} (m : M A) (k : A -> M B) : M B :=
  fun st =>
    match m st with
    | (Returns a, st') => k a st'
    | (Raises e, st') => (Raises e, st')
    end.

(** [try: body except Exception as e: handler e]. *)
Definition try_except {A} (body : M A) (handler : exn -> M A) : M A :=
  fun st =>
    match body st with
    | (Returns a, st') => (Returns a, st')
    | (Raises e, st') => handler e st'
    end.

Declare Scope py_scope.
Delimit Scope py_scope with py.
Notation "x <- m ;; k" := (bind m (fun x => k))
  (at level 100, m at next level, right associativity) : py_scope.
Notation "m ;;; k" := (bind m (fun _ => k))
  (at level 100, right associativity) : py_scope.
Local Open Scope py_scope.

Section Middleware.
Context `{V : FieldValidators}.
Variable env : Env.

(** [datetime.now()]: the next reading of the clock. *)
Definition datetime_now : M Z :=
  fun st =>
    (Returns (clock env (now_calls st)),
     mkState (_cache st) (S (now_calls st)) (sent st) (stdout st) (stores st)).

(** [await client.get(url, timeout=t)]: the request is recorded, and the
    surroundings decide between a response and an exception. *)
Definition client_get (u : string) (t : Z) : M Response :=
  fun st =>
    let rq := mkRequest u t in
    let st' := mkState (_cache st) (now_calls st) (sent st ++ [rq])
                       (stdout st) (stores st) in
    match network env (length (sent st)) rq with
    | inl e => (Raises e, st')
    | inr r => (Returns r, st')
    end.

Definition print (line : list printed) : M unit :=
  fun st =>
    (Returns tt,
     mkState (_cache st) (now_calls st) (sent st) (stdout st ++ [line]) (stores st)).

(** [_cache[k] = e]. *)
Definition cache_set (k : string) (e : CacheEntry) : M unit :=
  fun st =>
    (Returns tt,
     mkState (<[k := e]> (_cache st)) (now_calls st) (sent st) (stdout st)
             (stores st ++ [(k, e)])).

Definition cache_lookup (k : string) : M (option CacheEntry) :=
  fun st => (Returns (_cache st !! k), st).

(** [response.json()]. *)
Definition response_json (r : Response) : M json :=
  match body r with
  | Some j => ret j
  | None => raise JSONDecodeError
  end.

(** [data.get(k)]: only a dictionary has the method; a missing key
    gives [None]. *)
Definition data_get (data : json) (k : string) : M json :=
  match data with
  | JDict d => ret (match dict_get d k with Some v => v | None => JNull end)
  | _ => raise (AttributeError "get")
  end.

(** Line 76, reached only when [data] is a dictionary. *)
Definition construct (data : json) : M AgentIdentity :=
  match data with
  | JDict d =>
      match AgentIdentity_init d with
      | Some a => ret a
      | None => raise ValidationError
      end
  | _ => raise TypeError
  end.

(** Lines 57-60: the cache check.  [Some v] is the early [return v]. *)
Definition check_cache (did : string) : M (option (option AgentIdentity)) :=
  entry <- cache_lookup did ;;
  match entry with
  | Some (cached_time, cached_data) =>
      now <- datetime_now ;;
      if now <? cached_time + CACHE_TTL then ret (Some cached_data) else ret None
  | None => ret None
  end.

(** Lines 63-81: the body of the [try]. *)
Definition fetch (did : string) : M (option AgentIdentity) :=
  response <- client_get (String.append AGENT_IDENTITY_API (String.append "/verify/" did)) 10 ;;
  if negb (status_code response =? 200) then
    print [PrLit "[AgentIdentity] API error: "; PrInt (status_code response)] ;;;
    ret None
  else
    data <- response_json response ;;
    flag <- data_get data "verified" ;;
    if truthy flag then
      agent <- construct data ;;
      now <- datetime_now ;;
      cache_set did (now, Some agent) ;;;
      ret (Some agent)
    else
      now <- datetime_now ;;
      cache_set did (now, None) ;;;
      ret None.

(** Lines 83-85: the [except] clause. *)
Definition handler (e : exn) : M (option AgentIdentity) :=
  print [PrLit "[AgentIdentity] Verification failed: "; PrExn e] ;;; ret None.

Definition verify_agent (did : string) : M (option AgentIdentity) :=
  hit <- check_cache did ;;
  match hit with
  | Some cached_data => ret cached_data
  | None => try_except (fetch did) handler
  end.

(** The three exceptions raised by the gates, with the [detail]
    dictionaries of lines 99-106, 111-119 and 151-159. *)
Definition REGISTER_URL : string := "https://agent-identity.onrender.com/".

Definition IDENTITY_REQUIRED : exn :=
  HTTPException 401
    [("error", PStr "Agent identity required");
     ("message", PStr "Include X-Agent-DID header with your agent's DID");
     ("register_url", PStr REGISTER_URL)].

Definition NOT_VERIFIED (agent_did : string) : exn :=
  HTTPException 401
    [("error", PStr "Agent not verified");
     ("message", PStr "The provided DID is not registered or verified");
     ("did", PStr agent_did);
     ("register_url", PStr REGISTER_URL)].

Definition INSUFFICIENT_REPUTATION (min_reputation : spec_float)
    (agent : AgentIdentity) : exn :=
  HTTPException 403
    [("error", PStr "Insufficient reputation");
     ("message", PFString [Lit "This endpoint requires minimum ";
                           FmtFloat min_reputation;
                           Lit " reputation"]);
     ("your_reputation", PFloat (reputation agent));
     ("did", PStr (did agent))].

(** [if not agent_did] sends both [None] and the empty string to the
    first [raise]. *)
Definition require_agent (x_agent_did x_agent_identity : option string)
    : M AgentIdentity :=
  let agent_did := py_or x_agent_did x_agent_identity in
  match agent_did with
  | Some d =>
      if negb (str_truthy d) then raise IDENTITY_REQUIRED
      else
        agent <- verify_agent d ;;
        match agent with
        | None => raise (NOT_VERIFIED d)
        | Some a => ret a
        end
  | None => raise IDENTITY_REQUIRED
  end.

Definition optional_agent (x_agent_did x_agent_identity : option string)
    : M (option AgentIdentity) :=
  let agent_did := py_or x_agent_did x_agent_identity in
  match agent_did with
  | Some d => if negb (str_truthy d) then ret None else verify_agent d
  | None => ret None
  end.

(** The inner function of [require_reputation]. *)
Definition dependency (min_reputation : spec_float) (agent : AgentIdentity)
    : M AgentIdentity :=
  if SFltb (reputation agent) min_reputation then
    raise (INSUFFICIENT_REPUTATION min_reputation agent)
  else ret agent.

(** The gate [Depends(require_reputation(T))]: the framework resolves
    [Depends(require_agent)] from the request headers and passes its
    result to [dependency]. *)
Definition require_reputation (min_reputation : spec_float)
    (x_agent_did x_agent_identity : option string) : M AgentIdentity :=
  agent <- require_agent x_agent_did x_agent_identity ;;
  dependency min_reputation agent.

(** An entry is fresh when the clock reading taken by the check lies
    before its insertion time plus the time-to-live. *)
Definition fresh (st : State) (did : string) : bool :=
  match _cache st !! did with
  | Some (cached_time, _) => clock env (now_calls st) <? cached_time + CACHE_TTL
  | None => false
  end.

(** The request [verify_agent] sends for an identifier. *)
Definition verify_request (did : string) : Request :=
  mkRequest (String.append AGENT_IDENTITY_API (String.append "/verify/" did)) 10.

(** Clock reading taken by the store that follows a cache miss: the
    check has read the clock once iff the identifier had an entry. *)
Definition store_time (st : State) (did : string) : Z :=
  match _cache st !! did with
  | Some _ => clock env (S (now_calls st))
  | None => clock env (now_calls st)
  end.

Definition tick (st : State) : State :=
  mkState (_cache st) (S (now_calls st)) (sent st) (stdout st) (stores st).

(** State in which the [try] block starts after a miss. *)
Definition after_check (st : State) (did : string) : State :=
  match _cache st !! did with
  | Some _ => tick st
  | None => st
  end.

(** [data.get("verified")] on a dictionary. *)
Definition flag_of (d : list (string * json)) : json :=
  match dict_get d "verified" with
  | Some v => v
  | None => JNull
  end.

(** What the call leaves behind when the request was sent and nothing
    was stored: one more request, one more printed line. *)
Definition failed (st : State) (did : string) (line : list printed) : State :=
  mkState (_cache st) (now_calls st) (sent st ++ [verify_request did])
          (stdout st ++ [line]) (stores st).

(** What the call leaves behind after a store. *)
Definition stored (st : State) (did : string)
    (v : option AgentIdentity) : State :=
  let e := (clock env (now_calls st), v) in
  mkState (<[did := e]> (_cache st)) (S (now_calls st))
          (sent st ++ [verify_request did]) (stdout st)
          (stores st ++ [(did, e)]).

Definition answer (st : State) (did : string) : exn + Response :=
  network env (length (sent st)) (verify_request did).

(** The three ways a call of [verify_agent] can go. *)
Inductive verify_run (did : string) (st : State)
    : outcome (option AgentIdentity) * State -> Prop :=
  | run_hit cached_time cached_data :
      _cache st !! did = Some (cached_time, cached_data) ->
      fresh st did = true ->
      verify_run did st (Returns cached_data, tick st)
  | run_failed line :
      fresh st did = false ->
      verify_run did st (Returns None, failed (after_check st did) did line)
  | run_stored v :
      fresh st did = false ->
      verify_run did st (Returns v, stored (after_check st did) did v).

End Middleware.

(** ** Validators and surroundings used in the examples *)

(** Validators that accept a value only when [json.loads] already gave it
    the declared type. *)
Definition exact_validators : FieldValidators := {|
  validate_str := fun v => match v with JStr s => Some s | _ => None end;
  validate_int := fun v => match v with JInt z => Some z | _ => None end;
  validate_float := fun v => match v with JFloat f => Some f | _ => None end
|}.

(** The float 4.5. *)
Definition f4_5 : spec_float := S754_finite false 5066549580791808 (-50).

(** The float 4.0. *)
Definition f4_0 : spec_float := S754_finite false 4503599627370496 (-50).

(** The float 5.0. *)
Definition f5_0 : spec_float := S754_finite false 5629499534213120 (-50).

Definition profile_fields (flag : json) : list (string * json) :=
  [("verified", flag);
   ("did", JStr "did:x:1");
   ("name", JStr "alice");
   ("reputation", JFloat f4_5);
   ("tasks_completed", JInt 12);
   ("registered_at", JStr "2024-01-01T00:00:00Z");
   ("flags", JInt 0);
   ("verification_url", JStr "https://agent-identity.onrender.com/verify/did:x:1")].

Definition profile (flag : json) : json := JDict (profile_fields flag).

Definition alice : AgentIdentity :=
  mkAgentIdentity true "did:x:1" "alice" f4_5 12 "2024-01-01T00:00:00Z" 0
    "https://agent-identity.onrender.com/verify/did:x:1".

(** A clock that advances one second per reading. *)
Definition seconds_clock (n : nat) : Z := 1000000 * Z.of_nat n.

(** A service that answers every request with the given result. *)
Definition answering (r : exn + Response) : Env :=
  mkEnv seconds_clock (fun _ _ => r).

Definition initial : State := mkState ∅ 0 [] [] [].

(** A service that approves [did:x:1] with the profile above. *)
Definition approving : Env :=
  answering (inr (mkResponse 200 (Some (profile (JBool true))))).

(** A service whose answer carries the flag and nothing else. *)
Definition bare_approval : Env :=
  answering (inr (mkResponse 200 (Some (JDict [("verified", JBool true)])))).

(** A service whose answer carries the flag as the string [false]. *)
Definition string_false : Env :=
  answering (inr (mkResponse 200 (Some (profile (JStr "false"))))).

(** A service that denies. *)
Definition denying : Env :=
  answering (inr (mkResponse 200 (Some (JDict [("verified", JBool false)])))).

(** A service that cannot be reached. *)
Definition unreachable : Env := answering (inl (TransportError "connect timeout")).

(** A service that answers with status 503. *)
Definition unavailable : Env := answering (inr (mkResponse 503 None)).

Definition unverified_alice : AgentIdentity :=
  mkAgentIdentity false "did:x:1" "alice" f4_5 12 "2024-01-01T00:00:00Z" 0
    "https://agent-identity.onrender.com/verify/did:x:1".

(** A cache that already holds the record of [did:x:1], stored at time 0. *)
Definition warm : State :=
  mkState (<["did:x:1" := (0, Some alice)]> ∅) 0 [] [] [].

(** Lookup in the [detail] dictionary of an [HTTPException]. *)
Fixpoint detail_get (detail : list (string * pyvalue)) (k : string) : option pyvalue :=
  match detail with
  | [] => None
  | (k', v) :: rest => if String.eqb k' k then Some v else detail_get rest k
  end.

(** ** Ways to choose between the two headers *)

(** The first header that is present. *)
Definition first_present (primary fallback : option string) : option string :=
  match primary with
  | Some s => Some s
  | None => fallback
  end.

(** The primary header when it is present and not empty, the fallback
    header otherwise. *)
Definition first_nonempty (primary fallback : option string) : option string :=
  match primary with
  | Some (String _ _) => primary
  | _ => fallback
  end.

(** Both gates behave as if [select] had picked the identifier. *)
Definition gates_select `{V : FieldValidators} (env : Env)
    (select : option string -> option string -> option string) : Prop :=
  forall x_agent_did x_agent_identity st,
    require_agent env x_agent_did x_agent_identity st
    = require_agent env (select x_agent_did x_agent_identity) None st
    /\ optional_agent env x_agent_did x_agent_identity st
       = optional_agent env (select x_agent_did x_agent_identity) None st.

(** The call returns a record and leaves it in the cache under the
    identifier. *)
Definition returns_stored_record `{V : FieldValidators} (env : Env)
    (did : string) (st : State) : Prop :=
  exists agent now,
    fst (verify_agent env did st) = Returns (Some agent)
    /\ _cache (snd (verify_agent env did st)) !! did = Some (now, Some agent).

(** ** The example application (lines 166-194)

    A handler returns a dictionary; an endpoint is its dependency followed
    by the handler, as the framework runs them. *)

(** Values of the dictionaries the handlers return. *)
Inductive value : Type :=
  | VStr (s : string)
  | VFloat (f : spec_float)
  | VInt (z : Z).

Section Application.
Context `{V : FieldValidators}.
Variable env : Env.

(** [GET /public]. *)
Definition public_endpoint : M (list (string * value)) :=
  ret [("message", VStr "This endpoint is open to everyone")].

(** [GET /agent-only], behind [Depends(require_agent)]. *)
Definition agent_only (x_agent_did x_agent_identity : option string)
    : M (list (string * value)) :=
  agent <- require_agent env x_agent_did x_agent_identity ;;
  ret [("message", VStr (String.append "Hello, " (String.append (name agent) "!")));
       ("your_reputation", VFloat (reputation agent));
       ("tasks_completed", VInt (tasks_completed agent))].

(** [GET /premium], behind [Depends(require_reputation(4.0))]. *)
Definition premium_endpoint (x_agent_did x_agent_identity : option string)
    : M (list (string * value)) :=
  agent <- require_reputation env f4_0 x_agent_did x_agent_identity ;;
  ret [("message", VStr "Welcome to the premium endpoint!")].

(** [GET /tracked], behind [Depends(optional_agent)]; a record is always
    true in [if agent]. *)
Definition tracked_endpoint (x_agent_did x_agent_identity : option string)
    : M (list (string * value)) :=
  agent <- optional_agent env x_agent_did x_agent_identity ;;
  match agent with
  | Some a =>
      ret [("message", VStr (String.append "Tracked request from " (name a)))]
  | None => ret [("message", VStr "Anonymous request")]
  end.

End Application.

(** ** Sequences of calls *)

(** One call into the module. *)
Inductive call : Type :=
  | CallVerify (did : string)
  | CallRequire (x_agent_did x_agent_identity : option string)
  | CallOptional (x_agent_did x_agent_identity : option string)
  | CallReputation (min_reputation : spec_float)
      (x_agent_did x_agent_identity : option string).

Section Calls.
Context `{V : FieldValidators}.
Variable env : Env.

(** The state a call leaves behind. *)
Definition after_call (st : State) (c : call) : State :=
  match c with
  | CallVerify d => snd (verify_agent env d st)
  | CallRequire x y => snd (require_agent env x y st)
  | CallOptional x y => snd (optional_agent env x y st)
  | CallReputation t x y => snd (require_reputation env t x y st)
  end.

Definition after_calls (st : State) (cs : list call) : State :=
  fold_left after_call cs st.

End Calls.

(** An entry is in order when it is a negative or holds a record whose
    [verified] field is true. *)
Definition entry_verified (e : CacheEntry) : bool :=
  match snd e with
  | Some a => verified a
  | None => true
  end.

Definition all_verified (cache : gmap string CacheEntry) : Prop :=
  map_Forall (fun _ e => entry_verified e = true) cache.

(** The service never sends a flag that is true for Python and validates
    to [False]. *)
Definition consistent_flags (env : Env) : Prop :=
  forall n rq d,
    network env n rq = inr (mkResponse 200 (Some (JDict d))) ->
    truthy (flag_of d) = true ->
    validate_bool (flag_of d) <> Some false.

(** A float that is not a number. *)
Definition is_nan (f : spec_float) : bool :=
  match f with
  | S754_nan => true
  | _ => false
  end.

(** A service that answers the first request with an error and approves
    from the second on. *)
Definition recovering : Env :=
  mkEnv seconds_clock
    (fun n _ =>
       match n with
       | O => inl (TransportError "connect timeout")
       | S _ => inr (mkResponse 200 (Some (profile (JBool true))))
       end).

(** A clock that jumps by the time-to-live at every reading. *)
Definition ttl_clock (n : nat) : Z := CACHE_TTL * Z.of_nat n.

Definition slow_approving : Env :=
  mkEnv ttl_clock (fun _ _ => inr (mkResponse 200 (Some (profile (JBool true))))).

(** The warm cache after one reading of the clock. *)
Definition warm_later : State :=
  mkState (<["did:x:1" := (0, Some alice)]> ∅) 1 [] [] [].

(** Calls of three clients, one of them without headers. *)
Definition traffic : list call :=
  [CallRequire (Some "did:x:1") None;
   CallOptional None None;
   CallReputation f5_0 None (Some "did:x:2");
   CallVerify "did:x:1"].

(** The profile above with a reputation that is not a number. *)
Definition nan_alice : AgentIdentity :=
  mkAgentIdentity true "did:x:1" "alice" S754_nan 12 "2024-01-01T00:00:00Z" 0
    "https://agent-identity.onrender.com/verify/did:x:1".

Definition nan_profile : Env :=
  answering (inr (mkResponse 200 (Some (JDict
    [("verified", JBool true);
     ("did", JStr "did:x:1");
     ("name", JStr "alice");
     ("reputation", JFloat S754_nan);
     ("tasks_completed", JInt 12);
     ("registered_at", JStr "2024-01-01T00:00:00Z");
     ("flags", JInt 0);
     ("verification_url",
      JStr "https://agent-identity.onrender.com/verify/did:x:1")])))).

(** ** Facts *)

Section Facts.
Context `{V : FieldValidators}.
Variable env : Env.

Lemma verify_agent_hit did st cached_time cached_data :
  _cache st !! did = Some (cached_time, cached_data) ->
  clock env (now_calls st) < cached_time + CACHE_TTL ->
  verify_agent env did st = (Returns cached_data, tick st).
Proof.
  intros Hin Hlt.
  cbv [verify_agent bind check_cache cache_lookup datetime_now].
  rewrite Hin. cbn.
  apply Z.ltb_lt in Hlt. rewrite Hlt. reflexivity.
Qed.

Lemma verify_agent_miss did st :
  fresh env st did = false ->
  verify_agent env did st
  = try_except (fetch env did) handler (after_check st did).
Proof.
  cbv [fresh verify_agent bind check_cache cache_lookup datetime_now
       after_check tick].
  destruct (_cache st !! did) as [[cached_time cached_data]|]; cbn.
  - intros ->. reflexivity.
  - reflexivity.
Qed.

Lemma after_check_cache st did : _cache (after_check st did) = _cache st.
Proof. unfold after_check. destruct (_cache st !! did); reflexivity. Qed.

Lemma after_check_sent st did : sent (after_check st did) = sent st.
Proof. unfold after_check. destruct (_cache st !! did); reflexivity. Qed.

Lemma after_check_stores st did : stores (after_check st did) = stores st.
Proof. unfold after_check. destruct (_cache st !! did); reflexivity. Qed.

Lemma after_check_clock st did :
  clock env (now_calls (after_check st did)) = store_time env st did.
Proof.
  unfold after_check, store_time. destruct (_cache st !! did); reflexivity.
Qed.

Ltac run_fetch :=
  cbv [try_except fetch bind client_get print ret raise handler
       response_json data_get construct datetime_now cache_set
       answer verify_request failed stored] in *.

Lemma fetch_transport_error did st e :
  answer env st did = inl e ->
  try_except (fetch env did) handler st
  = (Returns None,
     failed st did [PrLit "[AgentIdentity] Verification failed: "; PrExn e]).
Proof. run_fetch. intros ->. reflexivity. Qed.

Lemma fetch_bad_status did st r :
  answer env st did = inr r ->
  status_code r <> 200 ->
  try_except (fetch env did) handler st
  = (Returns None,
     failed st did [PrLit "[AgentIdentity] API error: "; PrInt (status_code r)]).
Proof.
  run_fetch. intros -> Hne.
  apply Z.eqb_neq in Hne. rewrite Hne. reflexivity.
Qed.

Lemma fetch_not_json did st :
  answer env st did = inr (mkResponse 200 None) ->
  try_except (fetch env did) handler st
  = (Returns None,
     failed st did [PrLit "[AgentIdentity] Verification failed: ";
                    PrExn JSONDecodeError]).
Proof. run_fetch. intros ->. reflexivity. Qed.

Lemma fetch_not_dict did st data :
  answer env st did = inr (mkResponse 200 (Some data)) ->
  (forall d, data <> JDict d) ->
  try_except (fetch env did) handler st
  = (Returns None,
     failed st did [PrLit "[AgentIdentity] Verification failed: ";
                    PrExn (AttributeError "get")]).
Proof.
  run_fetch. intros -> Hnd.
  destruct data; try reflexivity. now destruct (Hnd d).
Qed.

Lemma fetch_invalid did st d :
  answer env st did = inr (mkResponse 200 (Some (JDict d))) ->
  truthy (flag_of d) = true ->
  AgentIdentity_init d = None ->
  try_except (fetch env did) handler st
  = (Returns None,
     failed st did [PrLit "[AgentIdentity] Verification failed: ";
                    PrExn ValidationError]).
Proof.
  run_fetch. unfold flag_of. intros -> Hflag Hinit. cbn.
  rewrite Hflag, Hinit. reflexivity.
Qed.

Lemma fetch_verified did st d agent :
  answer env st did = inr (mkResponse 200 (Some (JDict d))) ->
  truthy (flag_of d) = true ->
  AgentIdentity_init d = Some agent ->
  try_except (fetch env did) handler st
  = (Returns (Some agent), stored env st did (Some agent)).
Proof.
  run_fetch. unfold flag_of. intros -> Hflag Hinit. cbn.
  rewrite Hflag, Hinit. reflexivity.
Qed.

Lemma fetch_denied did st d :
  answer env st did = inr (mkResponse 200 (Some (JDict d))) ->
  truthy (flag_of d) = false ->
  try_except (fetch env did) handler st
  = (Returns None, stored env st did None).
Proof.
  run_fetch. unfold flag_of. intros -> Hflag. cbn.
  rewrite Hflag. reflexivity.
Qed.

Lemma fetch_cases did st :
  (exists line,
      try_except (fetch env did) handler st = (Returns None, failed st did line))
  \/ (exists v,
      try_except (fetch env did) handler st = (Returns v, stored env st did v)).
Proof.
  destruct (answer env st did) as [e | [code [data|]]] eqn:Hans.
  - left. eexists. apply (fetch_transport_error _ _ _ Hans).
  - destruct (Z.eq_dec code 200) as [-> | Hcode].
    + destruct data as [ | b | z | f | s | l | d ];
        try (left; eexists; apply (fetch_not_dict _ _ _ Hans); discriminate).
      destruct (truthy (flag_of d)) eqn:Hflag.
      * destruct (AgentIdentity_init d) as [agent|] eqn:Hinit.
        -- right. eexists. apply (fetch_verified _ _ _ _ Hans Hflag Hinit).
        -- left. eexists. apply (fetch_invalid _ _ _ Hans Hflag Hinit).
      * right. eexists. apply (fetch_denied _ _ _ Hans Hflag).
    + left. eexists. apply (fetch_bad_status _ _ _ Hans Hcode).
  - destruct (Z.eq_dec code 200) as [-> | Hcode].
    + left. eexists. apply (fetch_not_json _ _ Hans).
    + left. eexists. apply (fetch_bad_status _ _ _ Hans Hcode).
Qed.

Lemma verify_agent_run did st : verify_run env did st (verify_agent env did st).
Proof.
  destruct (fresh env st did) eqn:Hfresh.
  - pose proof Hfresh as Hf. unfold fresh in Hf.
    destruct (_cache st !! did) as [[cached_time cached_data]|] eqn:Hin;
      [|discriminate].
    apply Z.ltb_lt in Hf.
    rewrite (verify_agent_hit _ _ _ _ Hin Hf).
    now apply run_hit with cached_time.
  - rewrite (verify_agent_miss _ _ Hfresh).
    destruct (fetch_cases did (after_check st did)) as [[line ->] | [v ->]].
    + now apply run_failed.
    + now apply run_stored.
Qed.

Lemma verify_agent_returns did st :
  exists v, fst (verify_agent env did st) = Returns v.
Proof. destruct (verify_agent_run did st); eexists; reflexivity. Qed.

Lemma verify_agent_cache did st :
  _cache (snd (verify_agent env did st)) = _cache st
  \/ exists e, _cache (snd (verify_agent env did st)) = <[did := e]> (_cache st).
Proof.
  destruct (verify_agent_run did st); cbn.
  - now left.
  - left. apply after_check_cache.
  - right. eexists. now rewrite after_check_cache.
Qed.

Lemma verify_agent_dom did st :
  dom (_cache st) ⊆ dom (_cache (snd (verify_agent env did st))).
Proof.
  destruct (verify_agent_cache did st) as [-> | [e ->]].
  - reflexivity.
  - rewrite dom_insert_L. set_solver.
Qed.

(** *** Comparison of floats *)

Lemma SFcompare_swap x y : SFcompare y x = option_map CompOpp (SFcompare x y).
Proof.
  destruct x as [sx | sx | | sx mx ex], y as [sy | sy | | sy my ey]; cbn;
    try destruct sx; try destruct sy; try reflexivity.
  - rewrite (Z.compare_antisym ey ex).
    destruct (ey ?= ex); cbn; try reflexivity.
    pose proof (Pos.compare_cont_antisym mx my Eq) as Hm. cbn in Hm.
    now rewrite <- Hm.
  - rewrite (Z.compare_antisym ey ex).
    destruct (ey ?= ex); cbn; try reflexivity.
    pose proof (Pos.compare_cont_antisym mx my Eq) as Hm. cbn in Hm.
    now rewrite <- Hm.
Qed.

(** [r >= t] excludes [r < t]. *)
Lemma SFleb_not_SFltb t r : SFleb t r = true -> SFltb r t = false.
Proof.
  unfold SFleb, SFltb. rewrite (SFcompare_swap t r).
  destruct (SFcompare t r) as [[]|]; cbn; congruence.
Qed.

(** *** The gates in terms of the verifier *)

Lemma py_or_falsy x y :
  opt_str_truthy x = false -> opt_str_truthy y = false ->
  opt_str_truthy (py_or x y) = false.
Proof. unfold py_or. intros -> Hy. exact Hy. Qed.

Lemma require_agent_no_identifier x y st :
  opt_str_truthy (py_or x y) = false ->
  require_agent env x y st = (Raises IDENTITY_REQUIRED, st).
Proof.
  unfold require_agent. destruct (py_or x y) as [d|]; cbn; [|reflexivity].
  intros ->. reflexivity.
Qed.

Lemma require_agent_identifier x y st d :
  py_or x y = Some d -> str_truthy d = true ->
  require_agent env x y st
  = match fst (verify_agent env d st) with
    | Returns (Some a) => (Returns a, snd (verify_agent env d st))
    | Returns None => (Raises (NOT_VERIFIED d), snd (verify_agent env d st))
    | Raises e => (Raises e, snd (verify_agent env d st))
    end.
Proof.
  unfold require_agent. intros -> ->. cbv [negb bind].
  destruct (verify_agent env d st) as [[[a|]|e] st']; reflexivity.
Qed.

Lemma optional_agent_no_identifier x y st :
  opt_str_truthy (py_or x y) = false ->
  optional_agent env x y st = (Returns None, st).
Proof.
  unfold optional_agent. destruct (py_or x y) as [d|]; cbn; [|reflexivity].
  intros ->. reflexivity.
Qed.

Lemma optional_agent_identifier x y st d :
  py_or x y = Some d -> str_truthy d = true ->
  optional_agent env x y st = verify_agent env d st.
Proof. unfold optional_agent. intros -> ->. reflexivity. Qed.

(** Either a gate leaves the state alone, or its final state is that of
    one call of the verifier. *)
Lemma require_agent_state x y st :
  snd (require_agent env x y st) = st
  \/ exists d, snd (require_agent env x y st) = snd (verify_agent env d st).
Proof.
  destruct (opt_str_truthy (py_or x y)) eqn:Hid.
  - destruct (py_or x y) as [d|] eqn:Hor; [|discriminate].
    right. exists d. rewrite (require_agent_identifier _ _ _ _ Hor Hid).
    destruct (fst (verify_agent env d st)) as [[a|]|e]; reflexivity.
  - left. now rewrite require_agent_no_identifier.
Qed.

Lemma optional_agent_state x y st :
  snd (optional_agent env x y st) = st
  \/ exists d, snd (optional_agent env x y st) = snd (verify_agent env d st).
Proof.
  destruct (opt_str_truthy (py_or x y)) eqn:Hid.
  - destruct (py_or x y) as [d|] eqn:Hor; [|discriminate].
    right. exists d. now rewrite (optional_agent_identifier _ _ _ _ Hor Hid).
  - left. now rewrite optional_agent_no_identifier.
Qed.

Lemma require_reputation_state t x y st :
  snd (require_reputation env t x y st) = snd (require_agent env x y st).
Proof.
  cbv [require_reputation bind dependency].
  destruct (require_agent env x y st) as [[a|e] st']; [|reflexivity].
  destruct (SFltb (reputation a) t); reflexivity.
Qed.

Lemma first_nonempty_py_or x y : py_or x y = first_nonempty x y.
Proof. destruct x as [[|c s]|]; reflexivity. Qed.

Lemma init_verified d agent :
  AgentIdentity_init d = Some agent ->
  field validate_bool d "verified" = Some (verified agent).
Proof.
  unfold AgentIdentity_init.
  destruct (field validate_bool d "verified"); [|discriminate].
  repeat (match goal with
          | |- context [match ?o with Some _ => _ | None => _ end] =>
              destruct o; [|discriminate]
          end).
  intros [= <-]. reflexivity.
Qed.

(** A flag that is the JSON boolean [true] gives a record whose
    [verified] field is true. *)
Lemma json_true_flag_verified d agent :
  dict_get d "verified" = Some (JBool true) ->
  AgentIdentity_init d = Some agent ->
  verified agent = true.
Proof.
  intros Hflag Hinit. apply init_verified in Hinit.
  unfold field in Hinit. rewrite Hflag in Hinit. cbn in Hinit. congruence.
Qed.

(** A body that holds the flag alone never validates. *)
Lemma bare_flag_invalid flag : AgentIdentity_init [("verified", flag)] = None.
Proof.
  unfold AgentIdentity_init.
  destruct (field validate_bool [("verified", flag)] "verified"); reflexivity.
Qed.

(** *** The verifier *)

(** C1. When the identifier has a cache entry whose insertion time plus
    the time-to-live lies after the clock reading of the call,
    [verify_agent] returns the stored value of that entry, be it a record
    or a cached negative, sends no request and executes no store; the
    cache is what it was. *)
Theorem verify_agent_fresh_entry did st cached_time cached_data :
  _cache st !! did = Some (cached_time, cached_data) ->
  clock env (now_calls st) < cached_time + CACHE_TTL ->
  fst (verify_agent env did st) = Returns cached_data
  /\ sent (snd (verify_agent env did st)) = sent st
  /\ stores (snd (verify_agent env did st)) = stores st
  /\ _cache (snd (verify_agent env did st)) = _cache st.
Proof.
  intros Hin Hlt. rewrite (verify_agent_hit _ _ _ _ Hin Hlt). cbn. auto.
Qed.

(** C2, amended. Without a fresh entry [verify_agent] sends exactly one
    request.  If the answer has status 200 and a JSON object as body, then:
    when the flag is true and the body validates as an identity record,
    that record is stored under the identifier with the clock reading of
    the store and returned; when the flag is false or missing, absence is
    stored under the identifier with the clock reading of the store and
    absence is returned. *)
Theorem verify_agent_miss_outcome did st :
  fresh env st did = false ->
  sent (snd (verify_agent env did st)) = sent st ++ [verify_request did]
  /\ (forall d agent,
        network env (length (sent st)) (verify_request did)
          = inr (mkResponse 200 (Some (JDict d))) ->
        truthy (flag_of d) = true ->
        AgentIdentity_init d = Some agent ->
        fst (verify_agent env did st) = Returns (Some agent)
        /\ _cache (snd (verify_agent env did st))
           = <[did := (store_time env st did, Some agent)]> (_cache st)
        /\ stores (snd (verify_agent env did st))
           = stores st ++ [(did, (store_time env st did, Some agent))])
  /\ (forall d,
        network env (length (sent st)) (verify_request did)
          = inr (mkResponse 200 (Some (JDict d))) ->
        truthy (flag_of d) = false ->
        fst (verify_agent env did st) = Returns None
        /\ _cache (snd (verify_agent env did st))
           = <[did := (store_time env st did, None)]> (_cache st)
        /\ stores (snd (verify_agent env did st))
           = stores st ++ [(did, (store_time env st did, None))]).
Proof.
  intros Hfresh. rewrite (verify_agent_miss _ _ Hfresh).
  split; [|split].
  - destruct (fetch_cases did (after_check st did)) as [[line ->] | [v ->]];
      cbn; now rewrite after_check_sent.
  - intros d agent Hnet Hflag Hinit.
    rewrite (fetch_verified did (after_check st did) d agent);
      [| unfold answer; now rewrite after_check_sent | exact Hflag | exact Hinit].
    cbn. now rewrite after_check_cache, after_check_stores, after_check_clock.
  - intros d Hnet Hflag.
    rewrite (fetch_denied did (after_check st did) d);
      [| unfold answer; now rewrite after_check_sent | exact Hflag].
    cbn. now rewrite after_check_cache, after_check_stores, after_check_clock.
Qed.

(** C3. When the entry is not fresh and the request raises, or its answer
    has a status code other than 200, [verify_agent] returns absence
    (it returns, it does not raise), executes no store and leaves the
    cache exactly as it was. *)
Theorem verify_agent_remote_failure did st :
  fresh env st did = false ->
  (exists e, network env (length (sent st)) (verify_request did) = inl e)
  \/ (exists r, network env (length (sent st)) (verify_request did) = inr r
               /\ status_code r <> 200) ->
  fst (verify_agent env did st) = Returns None
  /\ _cache (snd (verify_agent env did st)) = _cache st
  /\ stores (snd (verify_agent env did st)) = stores st.
Proof.
  intros Hfresh Hnet. rewrite (verify_agent_miss _ _ Hfresh).
  destruct Hnet as [[e Hnet] | [r [Hnet Hcode]]].
  - rewrite (fetch_transport_error did (after_check st did) e);
      [| unfold answer; now rewrite after_check_sent].
    cbn. now rewrite after_check_cache, after_check_stores.
  - rewrite (fetch_bad_status did (after_check st did) r);
      [| unfold answer; now rewrite after_check_sent | exact Hcode].
    cbn. now rewrite after_check_cache, after_check_stores.
Qed.

(** C10. A call [verify_agent did] leaves the entry of every other key,
    timestamp and stored value, as it was. *)
Theorem verify_agent_frame did k st :
  k <> did ->
  _cache (snd (verify_agent env did st)) !! k = _cache st !! k.
Proof.
  intros Hne.
  destruct (verify_agent_cache did st) as [-> | [e ->]]; [reflexivity|].
  apply lookup_insert_ne. congruence.
Qed.

(** *** The gates *)


(** C5. The gate of [require_reputation] with threshold [t] runs
    [require_agent] first.  A record whose reputation is at least [t] is
    returned unchanged; a record whose reputation is below [t] gives the
    403 exception "Insufficient reputation" whose detail carries [t], in
    its message, and the record's reputation; an exception of
    [require_agent] is passed on as it is, whatever the threshold. *)
Theorem require_reputation_outcomes t x_agent_did x_agent_identity st :
  (forall agent st',
      require_agent env x_agent_did x_agent_identity st = (Returns agent, st') ->
      SFleb t (reputation agent) = true ->
      require_reputation env t x_agent_did x_agent_identity st
        = (Returns agent, st'))
  /\ (forall agent st',
        require_agent env x_agent_did x_agent_identity st = (Returns agent, st') ->
        SFltb (reputation agent) t = true ->
        exists detail,
          require_reputation env t x_agent_did x_agent_identity st
            = (Raises (HTTPException 403 detail), st')
          /\ detail_get detail "error" = Some (PStr "Insufficient reputation")
          /\ detail_get detail "message"
             = Some (PFString [Lit "This endpoint requires minimum ";
                               FmtFloat t; Lit " reputation"])
          /\ detail_get detail "your_reputation"
             = Some (PFloat (reputation agent)))
  /\ (forall e st',
        require_agent env x_agent_did x_agent_identity st = (Raises e, st') ->
        require_reputation env t x_agent_did x_agent_identity st
          = (Raises e, st')).
Proof.
  cbv [require_reputation bind dependency].
  split; [|split].
  - intros agent st' -> Hge. now rewrite (SFleb_not_SFltb _ _ Hge).
  - intros agent st' -> Hlt. rewrite Hlt. eexists. split; [reflexivity|].
    repeat split.
  - intros e st' ->. reflexivity.
Qed.

(** C6. [optional_agent]: when neither header holds an identifier it
    returns absence and the state, hence the list of requests sent, is
    untouched; when the primary header X-Agent-DID holds an identifier it
    is exactly the call of [verify_agent] on that identifier, and when
    only the fallback header X-Agent-Identity holds one it is exactly the
    call of [verify_agent] on the fallback's identifier; and on every
    input it returns, it never raises. *)
Theorem optional_agent_outcomes x_agent_did x_agent_identity st :
  (opt_str_truthy x_agent_did = false ->
   opt_str_truthy x_agent_identity = false ->
   optional_agent env x_agent_did x_agent_identity st = (Returns None, st))
  /\ (forall d,
        x_agent_did = Some d ->
        str_truthy d = true ->
        optional_agent env x_agent_did x_agent_identity st
          = verify_agent env d st)
  /\ (forall d,
        opt_str_truthy x_agent_did = false ->
        x_agent_identity = Some d ->
        str_truthy d = true ->
        optional_agent env x_agent_did x_agent_identity st
          = verify_agent env d st)
  /\ (exists v,
        fst (optional_agent env x_agent_did x_agent_identity st) = Returns v).
Proof.
  split; [|split; [|split]].
  - intros Hx Hy. apply optional_agent_no_identifier. now apply py_or_falsy.
  - intros d -> Hd. apply optional_agent_identifier; [|exact Hd].
    unfold py_or. cbn. now rewrite Hd.
  - intros d Hx -> Hd. apply optional_agent_identifier; [|exact Hd].
    unfold py_or. now rewrite Hx.
  - destruct (opt_str_truthy (py_or x_agent_did x_agent_identity)) eqn:Hid.
    + destruct (py_or x_agent_did x_agent_identity) as [d|] eqn:Hor;
        [|discriminate].
      rewrite (optional_agent_identifier _ _ _ _ Hor Hid).
      apply verify_agent_returns.
    + rewrite (optional_agent_no_identifier _ _ _ Hid). now exists None.
Qed.

(** C7, amended. Both gates take the primary header X-Agent-DID when it is
    present and not empty, and the fallback header X-Agent-Identity
    otherwise: the identifier is [first_nonempty] of the two headers, and
    each gate behaves as if only that identifier had been sent. *)
Theorem gates_select_first_nonempty :
  (forall x_agent_did x_agent_identity,
      py_or x_agent_did x_agent_identity
      = first_nonempty x_agent_did x_agent_identity)
  /\ gates_select env first_nonempty.
Proof.
  split.
  - apply first_nonempty_py_or.
  - intros x y st. split.
    + destruct x as [[|c s]|], y as [[|c' s']|]; reflexivity.
    + destruct x as [[|c s]|], y as [[|c' s']|]; reflexivity.
Qed.

(** C8. Whatever the operation and the starting cache, every key of the
    cache before the operation is a key of the cache after it. *)
Theorem cache_keys_kept did t x_agent_did x_agent_identity st :
  dom (_cache st) ⊆ dom (_cache (snd (verify_agent env did st)))
  /\ dom (_cache st)
     ⊆ dom (_cache (snd (require_agent env x_agent_did x_agent_identity st)))
  /\ dom (_cache st)
     ⊆ dom (_cache (snd (optional_agent env x_agent_did x_agent_identity st)))
  /\ dom (_cache st)
     ⊆ dom (_cache (snd (require_reputation env t x_agent_did x_agent_identity st))).
Proof.
  assert (Hreq : dom (_cache st)
     ⊆ dom (_cache (snd (require_agent env x_agent_did x_agent_identity st)))).
  { destruct (require_agent_state x_agent_did x_agent_identity st)
      as [-> | [d ->]]; [reflexivity | apply verify_agent_dom]. }
  repeat split.
  - apply verify_agent_dom.
  - exact Hreq.
  - destruct (optional_agent_state x_agent_did x_agent_identity st)
      as [-> | [d ->]]; [reflexivity | apply verify_agent_dom].
  - now rewrite require_reputation_state.
Qed.

End Facts.

(** ** The facts at work on concrete runs *)

(** A warm cache answers without the service, which is out of reach. *)
Lemma verify_agent_fresh_entry_witness :
  _cache warm !! "did:x:1" = Some (0, Some alice)
  /\ fst (verify_agent (V:=exact_validators) unreachable "did:x:1" warm)
     = Returns (Some alice)
  /\ sent (snd (verify_agent (V:=exact_validators) unreachable "did:x:1" warm)) = []
  /\ stores (snd (verify_agent (V:=exact_validators) unreachable "did:x:1" warm)) = []
  /\ _cache (snd (verify_agent (V:=exact_validators) unreachable "did:x:1" warm))
     = _cache warm.
Proof.
  split; [vm_compute; reflexivity|].
  apply (@verify_agent_fresh_entry exact_validators unreachable "did:x:1" warm
           0 (Some alice)).
  - vm_compute. reflexivity.
  - vm_compute. reflexivity.
Defined.

(** A first call against an approving and against a denying service. *)
Lemma verify_agent_miss_outcome_witness :
  (fst (verify_agent (V:=exact_validators) approving "did:x:1" initial)
     = Returns (Some alice)
   /\ _cache (snd (verify_agent (V:=exact_validators) approving "did:x:1" initial))
      = <["did:x:1" := (0, Some alice)]> ∅
   /\ stores (snd (verify_agent (V:=exact_validators) approving "did:x:1" initial))
      = [("did:x:1", (0, Some alice))])
  /\ (fst (verify_agent (V:=exact_validators) denying "did:x:1" initial)
       = Returns None
     /\ _cache (snd (verify_agent (V:=exact_validators) denying "did:x:1" initial))
        = <["did:x:1" := (0, None)]> ∅
     /\ stores (snd (verify_agent (V:=exact_validators) denying "did:x:1" initial))
        = [("did:x:1", (0, None))]).
Proof.
  split.
  - destruct (@verify_agent_miss_outcome exact_validators approving "did:x:1" initial)
      as (_ & Hverified & _); [vm_compute; reflexivity|].
    apply (Hverified (profile_fields (JBool true)) alice); vm_compute; reflexivity.
  - destruct (@verify_agent_miss_outcome exact_validators denying "did:x:1" initial)
      as (_ & _ & Hdenied); [vm_compute; reflexivity|].
    apply (Hdenied [("verified", JBool false)]); vm_compute; reflexivity.
Defined.

(** A first call against a service out of reach and against one that
    answers 503. *)
Lemma verify_agent_remote_failure_witness :
  (fst (verify_agent (V:=exact_validators) unreachable "did:x:1" initial) = Returns None
   /\ _cache (snd (verify_agent (V:=exact_validators) unreachable "did:x:1" initial)) = ∅
   /\ stores (snd (verify_agent (V:=exact_validators) unreachable "did:x:1" initial)) = [])
  /\ (fst (verify_agent (V:=exact_validators) unavailable "did:x:1" initial) = Returns None
     /\ _cache (snd (verify_agent (V:=exact_validators) unavailable "did:x:1" initial)) = ∅
     /\ stores (snd (verify_agent (V:=exact_validators) unavailable "did:x:1" initial)) = []).
Proof.
  split.
  - apply (@verify_agent_remote_failure exact_validators unreachable "did:x:1" initial).
    + vm_compute. reflexivity.
    + left. exists (TransportError "connect timeout"). vm_compute. reflexivity.
  - apply (@verify_agent_remote_failure exact_validators unavailable "did:x:1" initial).
    + vm_compute. reflexivity.
    + right. exists (mkResponse 503 None). split; [vm_compute; reflexivity | cbn; lia].
Defined.

(** Verifying [did:x:2] leaves the entry of [did:x:1] alone. *)
Lemma verify_agent_frame_witness :
  _cache (snd (verify_agent (V:=exact_validators) approving "did:x:2" warm)) !! "did:x:1"
  = _cache warm !! "did:x:1".
Proof.
  apply (@verify_agent_frame exact_validators approving "did:x:2" "did:x:1" warm).
  discriminate.
Defined.


(** A reputation of 4.5 against the thresholds 4.0 and 5.0, and a request
    without headers. *)
Lemma require_reputation_outcomes_witness :
  require_reputation (V:=exact_validators) approving f4_0 (Some "did:x:1") None initial
    = (Returns alice,
       snd (require_agent (V:=exact_validators) approving (Some "did:x:1") None initial))
  /\ (exists detail,
        require_reputation (V:=exact_validators) approving f5_0
            (Some "did:x:1") None initial
          = (Raises (HTTPException 403 detail),
             snd (require_agent (V:=exact_validators) approving
                    (Some "did:x:1") None initial))
        /\ detail_get detail "error" = Some (PStr "Insufficient reputation")
        /\ detail_get detail "message"
           = Some (PFString [Lit "This endpoint requires minimum ";
                             FmtFloat f5_0; Lit " reputation"])
        /\ detail_get detail "your_reputation" = Some (PFloat f4_5))
  /\ require_reputation (V:=exact_validators) approving f5_0 None None initial
     = (Raises IDENTITY_REQUIRED, initial).
Proof.
  split; [|split].
  - apply (proj1 (@require_reputation_outcomes exact_validators approving f4_0
                    (Some "did:x:1") None initial));
      vm_compute; reflexivity.
  - apply (proj1 (proj2 (@require_reputation_outcomes exact_validators approving
                           f5_0 (Some "did:x:1") None initial)) alice);
      vm_compute; reflexivity.
  - apply (proj2 (proj2 (@require_reputation_outcomes exact_validators approving
                           f5_0 None None initial)));
      vm_compute; reflexivity.
Defined.

(** The optional gate without an identifier, with an approved identifier
    in the primary header next to another one in the fallback header, and
    with a denied identifier in the fallback header after an empty
    primary header. *)
Lemma optional_agent_outcomes_witness :
  optional_agent (V:=exact_validators) approving (Some "") None initial
    = (Returns None, initial)
  /\ (optional_agent (V:=exact_validators) approving
        (Some "did:x:1") (Some "did:x:2") initial
      = verify_agent (V:=exact_validators) approving "did:x:1" initial
      /\ fst (optional_agent (V:=exact_validators) approving
                (Some "did:x:1") (Some "did:x:2") initial)
         = Returns (Some alice)
      /\ sent (snd (optional_agent (V:=exact_validators) approving
                      (Some "did:x:1") (Some "did:x:2") initial))
         = [verify_request "did:x:1"])
  /\ (optional_agent (V:=exact_validators) denying (Some "") (Some "did:x:2") initial
      = verify_agent (V:=exact_validators) denying "did:x:2" initial
      /\ fst (optional_agent (V:=exact_validators) denying
                (Some "") (Some "did:x:2") initial)
         = Returns None
      /\ sent (snd (optional_agent (V:=exact_validators) denying
                      (Some "") (Some "did:x:2") initial))
         = [verify_request "did:x:2"]).
Proof.
  split; [|split].
  - apply (proj1 (@optional_agent_outcomes exact_validators approving
                    (Some "") None initial)); reflexivity.
  - rewrite (proj1 (proj2 (@optional_agent_outcomes exact_validators approving
                             (Some "did:x:1") (Some "did:x:2") initial))
               "did:x:1" eq_refl eq_refl).
    repeat split.
  - rewrite (proj1 (proj2 (proj2 (@optional_agent_outcomes exact_validators
                                    denying (Some "") (Some "did:x:2") initial)))
               "did:x:2" eq_refl eq_refl eq_refl).
    repeat split.
Defined.

(** C2 as stated fails: the answer has status 200 and a true flag, yet no
    record is returned or stored, because the body does not validate. *)
Lemma true_flag_without_record :
  fresh bare_approval initial "did:x:1" = false
  /\ network bare_approval 0 (verify_request "did:x:1")
     = inr (mkResponse 200 (Some (JDict [("verified", JBool true)])))
  /\ truthy (flag_of [("verified", JBool true)]) = true
  /\ ~ returns_stored_record (V:=exact_validators) bare_approval "did:x:1" initial.
Proof.
  repeat split.
  intros (agent & now & Hret & _). vm_compute in Hret. discriminate.
Qed.

(** C7 as stated fails: with an empty primary header and a fallback header
    the gates do not behave as if the primary header had been picked. *)
Lemma empty_primary_header_skipped :
  ~ gates_select (V:=exact_validators) approving first_present.
Proof.
  intros Hsel.
  destruct (Hsel (Some "") (Some "did:x:1") initial) as [Hreq _].
  vm_compute in Hreq. discriminate.
Qed.

(** C9 fails on the code. The answer has status 200 and carries the flag
    as the non-empty string [false]: the truth test of line 75 passes, the
    [bool] field validates the string to [False], and [verify_agent]
    returns and stores a record whose [verified] field is false. *)
Theorem verify_agent_unverified_record :
  truthy (flag_of (profile_fields (JStr "false"))) = true
  /\ fst (verify_agent (V:=exact_validators) string_false "did:x:1" initial)
     = Returns (Some unverified_alice)
  /\ verified unverified_alice = false
  /\ _cache (snd (verify_agent (V:=exact_validators) string_false "did:x:1" initial))
       !! "did:x:1"
     = Some (0, Some unverified_alice).
Proof. repeat split. Qed.

(** ** Further facts about the verifier *)

Section Verifier.
Context `{V : FieldValidators}.
Variable env : Env.

Lemma app_one_neq {A} (l : list A) (x : A) : l ++ [x] <> l.
Proof.
  intros Heq. apply (f_equal (@length A)) in Heq.
  rewrite length_app in Heq. cbn in Heq. lia.
Qed.

Lemma fresh_entry did st cached_time cached_data :
  _cache st !! did = Some (cached_time, cached_data) ->
  fresh env st did = (clock env (now_calls st) <? cached_time + CACHE_TTL).
Proof. unfold fresh. intros ->. reflexivity. Qed.

Lemma fresh_no_entry did st : _cache st !! did = None -> fresh env st did = false.
Proof. unfold fresh. intros ->. reflexivity. Qed.

Lemma verify_agent_miss_sent did st :
  fresh env st did = false ->
  sent (snd (verify_agent env did st)) = sent st ++ [verify_request did].
Proof.
  intros Hfresh.
  destruct (verify_agent_run env did st) as [t v Hin Hf | line Hf | v Hf]; cbn.
  - congruence.
  - now rewrite after_check_sent.
  - now rewrite after_check_sent.
Qed.

Lemma verify_agent_sent_cases did st :
  sent (snd (verify_agent env did st)) = sent st
  \/ sent (snd (verify_agent env did st)) = sent st ++ [verify_request did].
Proof.
  destruct (fresh env st did) eqn:Hfresh.
  - left. unfold fresh in Hfresh.
    destruct (_cache st !! did) as [[t v]|] eqn:Hin; [|discriminate].
    apply Z.ltb_lt in Hfresh.
    now rewrite (verify_agent_hit env did st t v Hin Hfresh).
  - right. now apply verify_agent_miss_sent.
Qed.

(** A call calls [client.get] at most once, and the arguments it passes
    are the fixed base URL followed by [/verify/] and the identifier, and
    a timeout of ten seconds.  What the client library does with that
    URL is outside this module. *)
Theorem verify_agent_at_most_one_request did st :
  sent (snd (verify_agent env did st)) = sent st
  \/ sent (snd (verify_agent env did st))
     = sent st
       ++ [mkRequest
             (String.append "https://agent-identity.onrender.com/verify/" did)
             10].
Proof. apply verify_agent_sent_cases. Qed.

(** With an entry under the identifier, a request is sent exactly when the
    clock reading of the check is not before the insertion time plus the
    time-to-live; at the instant the time-to-live has elapsed the entry
    is stale. *)
Theorem verify_agent_request_iff_stale did st cached_time cached_data :
  _cache st !! did = Some (cached_time, cached_data) ->
  sent (snd (verify_agent env did st)) = sent st ++ [verify_request did]
  <-> cached_time + CACHE_TTL <= clock env (now_calls st).
Proof.
  intros Hin. pose proof (fresh_entry _ _ _ _ Hin) as Hfresh. split.
  - intros Hsent.
    destruct (Z.ltb_spec (clock env (now_calls st)) (cached_time + CACHE_TTL))
      as [Hlt | Hge]; [|exact Hge].
    rewrite (verify_agent_hit _ _ _ _ _ Hin Hlt) in Hsent. cbn in Hsent.
    symmetry in Hsent. now apply app_one_neq in Hsent.
  - intros Hge. apply verify_agent_miss_sent.
    rewrite Hfresh. now apply Z.ltb_ge.
Qed.

(** After a call that missed and got a 200 answer with a JSON object that
    is a denial or validates as a record, a second call for the same
    identifier that reads the clock before the time of the store plus the
    time-to-live gives the same result and sends no request. *)
Theorem verify_agent_repeat_within_ttl did st d :
  fresh env st did = false ->
  network env (length (sent st)) (verify_request did)
    = inr (mkResponse 200 (Some (JDict d))) ->
  truthy (flag_of d) = false \/ (exists agent, AgentIdentity_init d = Some agent) ->
  clock env (now_calls (snd (verify_agent env did st)))
    < store_time env st did + CACHE_TTL ->
  fst (verify_agent env did (snd (verify_agent env did st)))
    = fst (verify_agent env did st)
  /\ sent (snd (verify_agent env did (snd (verify_agent env did st))))
     = sent (snd (verify_agent env did st)).
Proof.
  intros Hfresh Hnet Hbody.
  assert (Hans : answer env (after_check st did) did
                 = inr (mkResponse 200 (Some (JDict d)))).
  { unfold answer. now rewrite after_check_sent. }
  assert (Hfirst : exists v,
             verify_agent env did st
             = (Returns v, stored env (after_check st did) did v)).
  { rewrite (verify_agent_miss _ _ _ Hfresh).
    destruct (truthy (flag_of d)) eqn:Hflag.
    - destruct Hbody as [Hno | [agent Hinit]]; [discriminate|].
      exists (Some agent). apply (fetch_verified env did _ d agent Hans Hflag Hinit).
    - exists None. apply (fetch_denied env did _ d Hans Hflag). }
  destruct Hfirst as [v ->]. cbn [fst snd]. intros Hlt.
  rewrite (verify_agent_hit env did _ (store_time env st did) v).
  - cbn. auto.
  - cbn. rewrite after_check_clock. apply lookup_insert_eq.
  - exact Hlt.
Qed.

(** An identifier without an entry whose request raises or is answered
    with a status other than 200 has no entry afterwards either: the
    next call for it sends the request again. *)
Theorem verify_agent_failure_retried did st :
  _cache st !! did = None ->
  (exists e, network env (length (sent st)) (verify_request did) = inl e)
  \/ (exists r, network env (length (sent st)) (verify_request did) = inr r
               /\ status_code r <> 200) ->
  _cache (snd (verify_agent env did st)) !! did = None
  /\ sent (snd (verify_agent env did (snd (verify_agent env did st))))
     = sent st ++ [verify_request did; verify_request did].
Proof.
  intros Hnone Hnet.
  pose proof (fresh_no_entry _ _ Hnone) as Hfresh.
  assert (Hst : after_check st did = st).
  { unfold after_check. now rewrite Hnone. }
  assert (Hfirst : exists line,
             verify_agent env did st = (Returns None, failed st did line)).
  { rewrite (verify_agent_miss _ _ _ Hfresh), Hst.
    destruct Hnet as [[e Hnet] | [r [Hnet Hcode]]].
    - eexists. apply (fetch_transport_error env did st e Hnet).
    - eexists. apply (fetch_bad_status env did st r Hnet Hcode). }
  destruct Hfirst as [line ->]. cbn [snd]. split; [exact Hnone|].
  rewrite verify_agent_miss_sent.
  - cbn. now rewrite <- app_assoc.
  - now apply fresh_no_entry.
Qed.

(** A call adds no key to the cache other than its own identifier. *)
Theorem verify_agent_keys_bound did st :
  dom (_cache (snd (verify_agent env did st))) ⊆ {[did]} ∪ dom (_cache st).
Proof.
  destruct (verify_agent_cache env did st) as [-> | [e ->]].
  - set_solver.
  - rewrite dom_insert_L. set_solver.
Qed.

(** Every request ends in exactly one of two ways: a line is printed,
    nothing is stored and absence is returned; or the result is stored
    under the identifier and nothing is printed.  A call that sends no
    request prints nothing and stores nothing. *)
Theorem verify_agent_print_or_store did st :
  (sent (snd (verify_agent env did st)) = sent st
   /\ stdout (snd (verify_agent env did st)) = stdout st
   /\ stores (snd (verify_agent env did st)) = stores st)
  \/ (sent (snd (verify_agent env did st)) = sent st ++ [verify_request did]
      /\ fst (verify_agent env did st) = Returns None
      /\ (exists line, stdout (snd (verify_agent env did st)) = stdout st ++ [line])
      /\ stores (snd (verify_agent env did st)) = stores st
      /\ _cache (snd (verify_agent env did st)) = _cache st)
  \/ (sent (snd (verify_agent env did st)) = sent st ++ [verify_request did]
      /\ stdout (snd (verify_agent env did st)) = stdout st
      /\ exists t,
           stores (snd (verify_agent env did st))
           = stores st ++ [(did, (t, match fst (verify_agent env did st) with
                                      | Returns v => v
                                      | Raises _ => None
                                      end))]).
Proof.
  destruct (verify_agent_run env did st) as [t v Hin Hf | line Hf | v Hf];
    cbn [fst snd].
  - left. cbn. auto.
  - right. left. cbn.
    rewrite after_check_sent, after_check_stores, after_check_cache.
    repeat split; try reflexivity.
    exists line. unfold after_check. now destruct (_cache st !! did).
  - right. right. cbn.
    rewrite after_check_sent, after_check_stores.
    repeat split; try reflexivity.
    + unfold after_check. now destruct (_cache st !! did).
    + now eexists.
Qed.

End Verifier.

(** ** Further facts about the gates *)

Section Gates.
Context `{V : FieldValidators}.
Variable env : Env.

(** The two ways [require_agent] and [optional_agent] can go, side by
    side. *)
Lemma gates_cases x y st :
  (opt_str_truthy (py_or x y) = false
   /\ require_agent env x y st = (Raises IDENTITY_REQUIRED, st)
   /\ optional_agent env x y st = (Returns None, st))
  \/ (exists d v,
        py_or x y = Some d /\ str_truthy d = true
        /\ verify_agent env d st = (Returns v, snd (verify_agent env d st))
        /\ optional_agent env x y st = (Returns v, snd (verify_agent env d st))
        /\ require_agent env x y st
           = (match v with
              | Some a => Returns a
              | None => Raises (NOT_VERIFIED d)
              end, snd (verify_agent env d st))).
Proof.
  destruct (opt_str_truthy (py_or x y)) eqn:Hid.
  - right. destruct (py_or x y) as [d|] eqn:Hor; [|discriminate].
    destruct (verify_agent_returns env d st) as [v Hv].
    exists d, v. repeat split; try assumption.
    + rewrite <- Hv. now destruct (verify_agent env d st).
    + rewrite (optional_agent_identifier _ _ _ _ _ Hor Hid).
      rewrite <- Hv. now destruct (verify_agent env d st).
    + rewrite (require_agent_identifier _ _ _ _ _ Hor Hid), Hv.
      now destruct v.
  - left. repeat split.
    + now apply require_agent_no_identifier.
    + now apply optional_agent_no_identifier.
Qed.

(** [require_agent] returns a record or raises an [HTTPException] with
    status 401; nothing else leaves it. *)
Theorem require_agent_record_or_401 x_agent_did x_agent_identity st :
  (exists agent,
      fst (require_agent env x_agent_did x_agent_identity st) = Returns agent)
  \/ (exists detail,
        fst (require_agent env x_agent_did x_agent_identity st)
        = Raises (HTTPException 401 detail)).
Proof.
  destruct (gates_cases x_agent_did x_agent_identity st)
    as [(_ & -> & _) | (d & [a|] & _ & _ & _ & _ & ->)]; cbn.
  - right. now eexists.
  - left. now eexists.
  - right. now eexists.
Qed.

(** The two gates agree: they leave the same state behind, one returns
    a record exactly when the other returns that record, and
    [require_agent] raises exactly when [optional_agent] returns
    absence. *)
Theorem gates_agree x_agent_did x_agent_identity st :
  snd (require_agent env x_agent_did x_agent_identity st)
  = snd (optional_agent env x_agent_did x_agent_identity st)
  /\ (forall agent,
        fst (require_agent env x_agent_did x_agent_identity st) = Returns agent
        <-> fst (optional_agent env x_agent_did x_agent_identity st)
            = Returns (Some agent))
  /\ ((exists e,
         fst (require_agent env x_agent_did x_agent_identity st) = Raises e)
      <-> fst (optional_agent env x_agent_did x_agent_identity st)
          = Returns None).
Proof.
  destruct (gates_cases x_agent_did x_agent_identity st)
    as [(_ & -> & ->) | (d & [a|] & _ & _ & _ & -> & ->)]; cbn.
  - split; [reflexivity|]. split.
    + intros agent. split; discriminate.
    + split; [reflexivity | now eexists].
  - split; [reflexivity|]. split.
    + intros agent. split; congruence.
    + split; [intros [e He]; discriminate | discriminate].
  - split; [reflexivity|]. split.
    + intros agent. split; discriminate.
    + split; [reflexivity | now eexists].
Qed.

(** Each gate sends at most one request, and the request is the one of
    the verifier for the identifier the headers select. *)
Theorem gates_at_most_one_request t x_agent_did x_agent_identity st :
  let sends (st' : State) :=
    sent st' = sent st
    \/ exists d,
         first_nonempty x_agent_did x_agent_identity = Some d
         /\ sent st' = sent st ++ [verify_request d] in
  sends (snd (require_agent env x_agent_did x_agent_identity st))
  /\ sends (snd (optional_agent env x_agent_did x_agent_identity st))
  /\ sends (snd (require_reputation env t x_agent_did x_agent_identity st)).
Proof.
  intros sends. unfold sends. rewrite require_reputation_state.
  destruct (gates_cases x_agent_did x_agent_identity st)
    as [(_ & -> & ->) | (d & v & Hor & _ & _ & -> & ->)]; cbn [snd].
  - repeat split; now left.
  - rewrite first_nonempty_py_or in Hor.
    assert (Hsent : sent (snd (verify_agent env d st)) = sent st
                    \/ exists d',
                         first_nonempty x_agent_did x_agent_identity = Some d'
                         /\ sent (snd (verify_agent env d st))
                            = sent st ++ [verify_request d']).
    { destruct (verify_agent_sent_cases env d st) as [Hs | Hs];
        [now left | right; now exists d]. }
    repeat split; exact Hsent.
Qed.

(** What leaves the gate of [require_reputation]: a record that
    [require_agent] returned and whose reputation is not below the
    threshold, or an [HTTPException] with status 401 or 403. *)
Theorem require_reputation_result t x_agent_did x_agent_identity st :
  (exists agent,
      require_reputation env t x_agent_did x_agent_identity st
      = (Returns agent, snd (require_agent env x_agent_did x_agent_identity st))
      /\ fst (require_agent env x_agent_did x_agent_identity st) = Returns agent
      /\ SFltb (reputation agent) t = false)
  \/ (exists detail,
        fst (require_reputation env t x_agent_did x_agent_identity st)
        = Raises (HTTPException 401 detail))
  \/ (exists detail,
        fst (require_reputation env t x_agent_did x_agent_identity st)
        = Raises (HTTPException 403 detail)).
Proof.
  cbv [require_reputation bind dependency].
  destruct (gates_cases x_agent_did x_agent_identity st)
    as [(_ & -> & _) | (d & [agent|] & _ & _ & _ & _ & ->)]; cbn.
  - right. left. now eexists.
  - destruct (SFltb (reputation agent) t) eqn:Hlt.
    + right. right. now eexists.
    + left. exists agent. cbn. auto.
  - right. left. now eexists.
Qed.

(** A reputation or a threshold that is not a number passes the
    comparison: the gate returns the record of [require_agent]. *)
Theorem require_reputation_nan t x_agent_did x_agent_identity st agent st' :
  require_agent env x_agent_did x_agent_identity st = (Returns agent, st') ->
  is_nan (reputation agent) = true \/ is_nan t = true ->
  require_reputation env t x_agent_did x_agent_identity st = (Returns agent, st').
Proof.
  intros Hreq Hnan. cbv [require_reputation bind dependency]. rewrite Hreq.
  assert (Hlt : SFltb (reputation agent) t = false).
  { destruct Hnan as [Hnan | Hnan].
    - destruct (reputation agent); try discriminate. reflexivity.
    - destruct t; try discriminate. now destruct (reputation agent). }
  now rewrite Hlt.
Qed.

End Gates.

(** ** Facts about sequences of calls *)

Section Reachable.
Context `{V : FieldValidators}.
Variable env : Env.

(** What every call of the verifier keeps, every call keeps, and so does
    every sequence of calls. *)
Lemma after_call_keeps (P : State -> Prop) :
  (forall d st, P st -> P (snd (verify_agent env d st))) ->
  forall c st, P st -> P (after_call env st c).
Proof.
  intros Hstep c st HP. destruct c as [d | x y | x y | t x y]; cbn.
  - now apply Hstep.
  - destruct (require_agent_state env x y st) as [-> | [d ->]];
      [exact HP | now apply Hstep].
  - destruct (optional_agent_state env x y st) as [-> | [d ->]];
      [exact HP | now apply Hstep].
  - rewrite require_reputation_state.
    destruct (require_agent_state env x y st) as [-> | [d ->]];
      [exact HP | now apply Hstep].
Qed.

Lemma after_calls_keeps (P : State -> Prop) :
  (forall d st, P st -> P (snd (verify_agent env d st))) ->
  forall cs st, P st -> P (after_calls env st cs).
Proof.
  intros Hstep cs. unfold after_calls.
  induction cs as [|c cs IH]; intros st HP; cbn.
  - exact HP.
  - apply IH. now apply after_call_keeps.
Qed.

Lemma verify_agent_size did st :
  (size (_cache st) <= length (sent st))%nat ->
  (size (_cache (snd (verify_agent env did st)))
   <= length (sent (snd (verify_agent env did st))))%nat.
Proof.
  intros Hle.
  destruct (verify_agent_run env did st) as [t v Hin Hf | line Hf | v Hf]; cbn.
  - exact Hle.
  - rewrite after_check_cache, after_check_sent, length_app. cbn. lia.
  - rewrite after_check_cache, after_check_sent, length_app, map_size_insert.
    cbn. destruct (_cache st !! did); cbn; lia.
Qed.

(** The cache never holds more identifiers than requests were sent: a
    bound that holds before a sequence of calls holds after it. *)
Theorem cache_size_at_most_requests cs st :
  (size (_cache st) <= length (sent st))%nat ->
  (size (_cache (after_calls env st cs))
   <= length (sent (after_calls env st cs)))%nat.
Proof.
  apply (after_calls_keeps
           (fun s => (size (_cache s) <= length (sent s))%nat)).
  intros d s. apply verify_agent_size.
Qed.

Lemma fetch_result_verified did st agent :
  consistent_flags env ->
  fst (try_except (fetch env did) handler st) = Returns (Some agent) ->
  verified agent = true.
Proof.
  intros Hcons.
  destruct (answer env st did) as [e | [code [data|]]] eqn:Hans.
  - rewrite (fetch_transport_error env did st e Hans). discriminate.
  - destruct (Z.eq_dec code 200) as [-> | Hcode].
    + destruct data as [ | b | z | f | s | l | d ];
        try (rewrite (fetch_not_dict env did st _ Hans); discriminate).
      destruct (truthy (flag_of d)) eqn:Hflag.
      * destruct (AgentIdentity_init d) as [a|] eqn:Hinit.
        -- rewrite (fetch_verified env did st d a Hans Hflag Hinit).
           intros [= <-].
           apply init_verified in Hinit.
           pose proof (Hcons _ _ _ Hans Hflag) as Hok.
           unfold field in Hinit. unfold flag_of in Hok.
           destruct (dict_get d "verified"); [|discriminate].
           rewrite Hinit in Hok. now destruct (verified a).
        -- rewrite (fetch_invalid env did st d Hans Hflag Hinit). discriminate.
      * rewrite (fetch_denied env did st d Hans Hflag). discriminate.
    + rewrite (fetch_bad_status env did st _ Hans Hcode). discriminate.
  - destruct (Z.eq_dec code 200) as [-> | Hcode].
    + rewrite (fetch_not_json env did st Hans). discriminate.
    + rewrite (fetch_bad_status env did st _ Hans Hcode). discriminate.
Qed.

Lemma verify_agent_result_verified did st agent :
  consistent_flags env ->
  all_verified (_cache st) ->
  fst (verify_agent env did st) = Returns (Some agent) ->
  verified agent = true.
Proof.
  intros Hcons Hall.
  destruct (fresh env st did) eqn:Hfresh.
  - unfold fresh in Hfresh.
    destruct (_cache st !! did) as [[t v]|] eqn:Hin; [|discriminate].
    apply Z.ltb_lt in Hfresh.
    rewrite (verify_agent_hit env did st t v Hin Hfresh). cbn.
    intros [= ->]. apply (map_Forall_lookup_1 _ _ _ _ Hall Hin).
  - rewrite (verify_agent_miss env did st Hfresh).
    now apply fetch_result_verified.
Qed.

(** When the service never sends a flag that is true for Python and
    validates to [False], and every record in the cache has a true
    [verified] field, a record returned by [verify_agent] has a true
    [verified] field. *)
Theorem verify_agent_returns_verified did st agent :
  consistent_flags env ->
  all_verified (_cache st) ->
  fst (verify_agent env did st) = Returns (Some agent) ->
  verified agent = true.
Proof. apply verify_agent_result_verified. Qed.

Lemma verify_agent_keeps_verified did st :
  consistent_flags env ->
  all_verified (_cache st) ->
  all_verified (_cache (snd (verify_agent env did st))).
Proof.
  intros Hcons Hall.
  pose proof (verify_agent_result_verified did st) as Hret.
  destruct (verify_agent_run env did st) as [t v Hin Hf | line Hf | v Hf]; cbn.
  - exact Hall.
  - now rewrite after_check_cache.
  - rewrite after_check_cache. apply map_Forall_insert_2; [|exact Hall].
    destruct v as [a|]; [|reflexivity].
    cbn. now apply Hret.
Qed.

(** Under the same condition on the service, a cache whose records all
    have a true [verified] field keeps that property through every
    sequence of calls. *)
Theorem all_verified_kept cs st :
  consistent_flags env ->
  all_verified (_cache st) ->
  all_verified (_cache (after_calls env st cs)).
Proof.
  intros Hcons.
  apply (after_calls_keeps (fun s => all_verified (_cache s))).
  intros d s. now apply verify_agent_keeps_verified.
Qed.

End Reachable.

(** ** Facts about the example application *)

Section Endpoints.
Context `{V : FieldValidators}.
Variable env : Env.

(** The handlers do nothing of their own to the state: an endpoint
    leaves the state its dependency leaves, and [/public] leaves the
    state as it is. *)
Theorem endpoints_state x_agent_did x_agent_identity st :
  snd (public_endpoint st) = st
  /\ snd (agent_only env x_agent_did x_agent_identity st)
     = snd (require_agent env x_agent_did x_agent_identity st)
  /\ snd (premium_endpoint env x_agent_did x_agent_identity st)
     = snd (require_agent env x_agent_did x_agent_identity st)
  /\ snd (tracked_endpoint env x_agent_did x_agent_identity st)
     = snd (optional_agent env x_agent_did x_agent_identity st).
Proof.
  split; [reflexivity|]. split; [|split].
  - cbv [agent_only bind].
    now destruct (require_agent env x_agent_did x_agent_identity st) as [[a|e] s].
  - cbv [premium_endpoint bind]. rewrite <- (require_reputation_state env f4_0).
    now destruct (require_reputation env f4_0 x_agent_did x_agent_identity st)
      as [[a|e] s].
  - cbv [tracked_endpoint bind].
    destruct (optional_agent env x_agent_did x_agent_identity st)
      as [[[a|]|e] s]; reflexivity.
Qed.

(** [/tracked] answers every request: with the name of the agent when
    [optional_agent] returns a record, as an anonymous request when it
    returns absence. *)
Theorem tracked_endpoint_answers x_agent_did x_agent_identity st :
  (exists agent,
      fst (optional_agent env x_agent_did x_agent_identity st)
        = Returns (Some agent)
      /\ fst (tracked_endpoint env x_agent_did x_agent_identity st)
         = Returns [("message",
                     VStr (String.append "Tracked request from " (name agent)))])
  \/ (fst (optional_agent env x_agent_did x_agent_identity st) = Returns None
      /\ fst (tracked_endpoint env x_agent_did x_agent_identity st)
         = Returns [("message", VStr "Anonymous request")]).
Proof.
  cbv [tracked_endpoint bind].
  destruct (gates_cases env x_agent_did x_agent_identity st)
    as [(_ & _ & ->) | (d & [a|] & _ & _ & _ & -> & _)]; cbn.
  - now right.
  - left. now exists a.
  - now right.
Qed.

(** [/premium] welcomes exactly the requests for which [require_agent]
    returns a record whose reputation is not below 4.0. *)
Theorem premium_endpoint_welcomes x_agent_did x_agent_identity st :
  fst (premium_endpoint env x_agent_did x_agent_identity st)
    = Returns [("message", VStr "Welcome to the premium endpoint!")]
  <-> exists agent,
        fst (require_agent env x_agent_did x_agent_identity st) = Returns agent
        /\ SFltb (reputation agent) f4_0 = false.
Proof.
  cbv [premium_endpoint require_reputation bind dependency].
  destruct (require_agent env x_agent_did x_agent_identity st) as [[a|e] s]; cbn.
  - destruct (SFltb (reputation a) f4_0) eqn:Hlt; cbn.
    + split; [discriminate|]. intros [agent [[= <-] Hno]]. congruence.
    + split; [|reflexivity]. intros _. now exists a.
  - split; [discriminate|]. intros [agent [Hret _]]. discriminate.
Qed.

End Endpoints.

(** ** The further facts at work on concrete runs *)

(** At the instant the time-to-live has elapsed the warm entry is stale. *)
Lemma verify_agent_request_iff_stale_witness :
  sent (snd (verify_agent (V:=exact_validators) slow_approving "did:x:1" warm_later))
  = [verify_request "did:x:1"].
Proof.
  apply (proj2 (@verify_agent_request_iff_stale exact_validators slow_approving
                  "did:x:1" warm_later 0 (Some alice) eq_refl)).
  vm_compute. discriminate.
Defined.

(** A second call one second after the first is served from the cache. *)
Lemma verify_agent_repeat_within_ttl_witness :
  fst (verify_agent (V:=exact_validators) approving "did:x:1"
         (snd (verify_agent (V:=exact_validators) approving "did:x:1" initial)))
    = fst (verify_agent (V:=exact_validators) approving "did:x:1" initial)
  /\ sent (snd (verify_agent (V:=exact_validators) approving "did:x:1"
                 (snd (verify_agent (V:=exact_validators) approving "did:x:1"
                         initial))))
     = sent (snd (verify_agent (V:=exact_validators) approving "did:x:1" initial)).
Proof.
  apply (@verify_agent_repeat_within_ttl exact_validators approving "did:x:1"
           initial (profile_fields (JBool true))).
  - vm_compute. reflexivity.
  - vm_compute. reflexivity.
  - right. exists alice. vm_compute. reflexivity.
  - vm_compute. reflexivity.
Defined.

(** After an outage the next call asks the service again. *)
Lemma verify_agent_failure_retried_witness :
  _cache (snd (verify_agent (V:=exact_validators) recovering "did:x:1" initial))
    !! "did:x:1" = None
  /\ sent (snd (verify_agent (V:=exact_validators) recovering "did:x:1"
                 (snd (verify_agent (V:=exact_validators) recovering "did:x:1"
                         initial))))
     = [verify_request "did:x:1"; verify_request "did:x:1"].
Proof.
  apply (@verify_agent_failure_retried exact_validators recovering "did:x:1" initial).
  - vm_compute. reflexivity.
  - left. exists (TransportError "connect timeout"). vm_compute. reflexivity.
Defined.

(** A reputation that is not a number passes the threshold 5.0. *)
Lemma require_reputation_nan_witness :
  require_reputation (V:=exact_validators) nan_profile f5_0 (Some "did:x:1") None
    initial
  = (Returns nan_alice,
     snd (require_agent (V:=exact_validators) nan_profile (Some "did:x:1") None
            initial)).
Proof.
  apply (@require_reputation_nan exact_validators nan_profile f5_0
           (Some "did:x:1") None initial nan_alice).
  - vm_compute. reflexivity.
  - left. vm_compute. reflexivity.
Defined.

(** From the empty cache, the traffic leaves no more identifiers than
    requests. *)
Lemma cache_size_at_most_requests_witness :
  (size (_cache (after_calls (V:=exact_validators) approving initial traffic))
   <= length (sent (after_calls (V:=exact_validators) approving initial traffic)))%nat.
Proof.
  apply (@cache_size_at_most_requests exact_validators approving traffic initial).
  vm_compute. lia.
Defined.

Lemma approving_consistent : consistent_flags approving.
Proof.
  intros n rq d Hnet _. cbn in Hnet.
  injection Hnet as <-. cbn. discriminate.
Qed.

(** The approving service gives a record whose [verified] field is true. *)
Lemma verify_agent_returns_verified_witness :
  fst (verify_agent (V:=exact_validators) approving "did:x:1" initial)
    = Returns (Some alice)
  /\ verified alice = true.
Proof.
  split; [vm_compute; reflexivity|].
  apply (@verify_agent_returns_verified exact_validators approving "did:x:1"
           initial alice).
  - exact approving_consistent.
  - apply map_Forall_empty.
  - vm_compute. reflexivity.
Defined.

(** From the empty cache and with the approving service, the traffic
    leaves only records whose [verified] field is true. *)
Lemma all_verified_kept_witness :
  all_verified (_cache (after_calls (V:=exact_validators) approving initial traffic)).
Proof.
  apply (@all_verified_kept exact_validators approving traffic initial).
  - exact approving_consistent.
  - apply map_Forall_empty.
Defined.

(** A reputation of 4.5 is welcome at [/premium]. *)
Lemma premium_endpoint_welcomes_witness :
  fst (premium_endpoint (V:=exact_validators) approving (Some "did:x:1") None initial)
  = Returns [("message", VStr "Welcome to the premium endpoint!")].
Proof.
  apply (proj2 (@premium_endpoint_welcomes exact_validators approving
                  (Some "did:x:1") None initial)).
  exists alice. split; vm_compute; reflexivity.
Defined.
